(** * kube-bench scanner (pkg/kubebench/scanner.go)

    A shallow embedding of the kube-bench [Scanner]: the descriptor built by
    [prepareKubeBenchJob] and the control flow of [Scan], with the cluster
    collaborators (run coordinator, pod manager, report converter, clientset)
    as fields of the scanner whose answers are arbitrary, and with every
    outbound call recorded in a trace. *)

From Stdlib Require Import List String Ascii ZArith Bool Lia.
Import ListNotations.
Local Open Scope string_scope.
Local Open Scope Z_scope.

(** ** Errors: [error] values, [fmt.Errorf("...: %w", err)], [errors.Unwrap] *)

Inductive Reason :=
| NotFound | Ambiguous | Canceled | DeadlineExceeded | JobFailed
| Rejected | StreamUnavailable | Malformed | Unknown.


(** An error is either produced by a collaborator ([Status], with the reason
    the collaborator gives and its message) or built by
    [fmt.Errorf(prefix ++ ": %w", inner)]. *)
Inductive error :=
| Status (r : Reason) (msg : string)
| Errorf (prefix : string) (inner : error).

(** [err.Error()] *)
Fixpoint Error (e : error) : string :=
  match e with
  | Status _ msg => msg
  | Errorf prefix inner => prefix ++ ": " ++ Error inner
  end.

(** [errors.Unwrap(err)] *)
Definition Unwrap (e : error) : option error :=
  match e with
  | Status _ _ => None
  | Errorf _ inner => Some inner
  end.



(** ** k8s.io/apimachinery/pkg/apis/meta/v1 *)

Module meta.

Record ObjectMeta := {
  Name : string;
  Namespace : string;
  Labels : list (string * string)
}.

Inductive DeletionPropagation :=
| DeletePropagationOrphan
| DeletePropagationBackground
| DeletePropagationForeground.

Record DeleteOptions := {
  PropagationPolicy : option DeletionPropagation
}.

End meta.

(** ** k8s.io/api/core/v1 *)

Module core.

Inductive RestartPolicy :=
| RestartPolicyAlways | RestartPolicyOnFailure | RestartPolicyNever.

Inductive PullPolicy := PullAlways | PullNever | PullIfNotPresent.

Inductive TerminationMessagePolicy :=
| TerminationMessageReadFile | TerminationMessageFallbackToLogsOnError.

Module HostPathVolumeSource.
Record t := { Path : string }.
End HostPathVolumeSource.

Module VolumeSource.
Record t := { HostPath : option HostPathVolumeSource.t }.
End VolumeSource.

Module Volume.
Record t := { Name : string; VolumeSource : VolumeSource.t }.
End Volume.

Module VolumeMount.
Record t := { Name : string; MountPath : string; ReadOnly : bool }.
End VolumeMount.

Module Container.
Record t := {
  Name : string;
  Image : string;
  ImagePullPolicy : PullPolicy;
  TerminationMessagePolicy : TerminationMessagePolicy;
  Command : list string;
  Args : list string;
  VolumeMounts : list VolumeMount.t
}.
End Container.

Module PodSpec.
Record t := {
  RestartPolicy : RestartPolicy;
  HostPID : bool;
  NodeName : string;
  Volumes : list Volume.t;
  Containers : list Container.t
}.
End PodSpec.

Module PodTemplateSpec.
Record t := { ObjectMeta : meta.ObjectMeta; Spec : PodSpec.t }.
End PodTemplateSpec.

Module Pod.
Record t := { ObjectMeta : meta.ObjectMeta; Spec : PodSpec.t }.
End Pod.

Module Node.
Record t := { ObjectMeta : meta.ObjectMeta }.
End Node.

End core.

(** ** k8s.io/api/batch/v1 *)

Module batch.

Module JobSpec.
Record t := {
  BackoffLimit : option Z;
  Completions : option Z;
  ActiveDeadlineSeconds : option Z;
  Template : core.PodTemplateSpec.t
}.
End JobSpec.

Module Job.
Record t := { ObjectMeta : meta.ObjectMeta; Spec : JobSpec.t }.
End Job.

End batch.

(** ** k8s.io/utils/pointer: a pointer to a fresh copy of the value *)

Module pointer.
Definition Int32Ptr (i : Z) : option Z := Some i.
Definition Int64Ptr (i : Z) : option Z := Some i.
End pointer.

(** ** github.com/google/uuid

    [uuid.New()] reads 16 bytes from the process-wide random source, stamps
    the version (4) and variant (10) bits, and [String()] prints the 16
    bytes in lower-case hexadecimal, grouped 8-4-4-4-12. The random source is
    an endless stream of bytes: [r i] is the [i]-th byte it delivers, taken
    modulo 256. *)

Module uuid.

Definition Reader := nat -> Z.

Definition UUID := list Z.

(** [io.ReadFull(r, uuid[:])] *)
Definition ReadFull (r : Reader) : UUID :=
  map (fun i => r i mod 256) (seq 0 16).

(** The bits of the [i]-th byte drawn that survive the stamping of version
    and variant: the low nibble of byte 6, the low six bits of byte 8, all
    eight bits of the others. *)
Definition freeBits (i : nat) (b : Z) : Z :=
  match i with
  | 6%nat => Z.land (b mod 256) 15
  | 8%nat => Z.land (b mod 256) 63
  | _ => b mod 256
  end.

(** [uuid[i] = f(uuid[i])]; an index out of range cannot occur on a
    16-byte array and leaves the list as it is. *)
Fixpoint update (i : nat) (f : Z -> Z) (u : UUID) : UUID :=
  match u, i with
  | [], _ => []
  | b :: u', O => f b :: u'
  | b :: u', S i' => b :: update i' f u'
  end.

(** [NewRandomFromReader]:
    [uuid[6] = (uuid[6] & 0x0f) | 0x40; uuid[8] = (uuid[8] & 0x3f) | 0x80] *)
Definition NewRandomFromReader (r : Reader) : UUID :=
  let u := ReadFull r in
  let u := update 6 (fun b => Z.lor (Z.land b 15) 64) u in
  update 8 (fun b => Z.lor (Z.land b 63) 128) u.

Definition New (r : Reader) : UUID := NewRandomFromReader r.

Definition hextable : list ascii :=
  list_ascii_of_string "0123456789abcdef".

Definition hexdigit (n : Z) : ascii := nth (Z.to_nat n) hextable "0"%char.

(** [hex.Encode(dst, src)]: two digits per byte, high nibble first *)
Fixpoint hexEncode (src : list Z) : string :=
  match src with
  | [] => EmptyString
  | b :: src' =>
      String (hexdigit (Z.shiftr b 4))
        (String (hexdigit (Z.land b 15)) (hexEncode src'))
  end.

Definition slice (u : UUID) (lo hi : nat) : list Z :=
  firstn (hi - lo) (skipn lo u).

(** [encodeHex]: xxxxxxxx-xxxx-xxxx-xxxx-xxxxxxxxxxxx *)
Definition String (u : UUID) : string :=
  hexEncode (slice u 0 4) ++ "-" ++
  hexEncode (slice u 4 6) ++ "-" ++
  hexEncode (slice u 6 8) ++ "-" ++
  hexEncode (slice u 8 10) ++ "-" ++
  hexEncode (slice u 10 16).

End uuid.

(** ** pkg/kube and pkg/scanners: what the scanner uses of them *)

Module kube.

(** [ScanJobTimeout] is a [time.Duration] in the source; here it is the
    configured timeout in seconds, 0 when none is configured. *)
Record ScannerOpts := { ScanJobTimeout : Z }.

End kube.

Module scanners.

(** Modelled from the spec: [scanners.Base.GetActiveDeadlineSeconds] is
    declared in pkg/scanners, which is not part of the sources at hand. The
    deadline is derived from the configured timeout: it equals the timeout
    when one is configured (T > 0) and is unset otherwise. *)
Definition GetActiveDeadlineSeconds (d : Z) : option Z :=
  if 0 <? d then pointer.Int64Ptr d else None.

End scanners.

(** ** pkg/apis/aquasecurity/v1alpha1 *)

Module starboard.

(** Modelled from the spec: the report type is declared in
    pkg/apis/aquasecurity/v1alpha1, which is not part of the sources at
    hand. A report holds tests grouped by section, each test with a status
    and a remediation text. *)
Record CISKubeBenchTest := { Status : string; Remediation : string }.
Record CISKubeBenchSection := { Tests : list CISKubeBenchTest }.
Record CISKubeBenchOutput := { Sections : list CISKubeBenchSection }.

(** The zero value of the struct, which a named result holds until it is
    assigned. *)
Definition zero : CISKubeBenchOutput := {| Sections := [] |}.

End starboard.

(** ** io.ReadCloser: an open stream, identified by its handle *)

Record ReadCloser := { handle : nat; content : string }.

(** ** pkg/runner with kube.NewRunnableJob: the run coordinator *)

Module runner.

(** Modelled from the spec: pkg/runner and kube.NewRunnableJob are not part
    of the sources at hand. Submitting a descriptor and waiting ends in one
    of: success; a submission error (the descriptor was rejected, nothing
    was created); an execution failure observed by the cluster (the
    workload was created and failed or exceeded its deadline); a
    cancellation of the caller's context, which may fire before or after
    the workload was created. *)
Inductive Outcome :=
| Succeeded
| SubmissionError (e : error)
| ExecutionFailure (e : error)
| Cancelled (created : bool) (e : error).

(** The [error] that [Run] returns: [nil] on success only. *)
Definition err (o : Outcome) : option error :=
  match o with
  | Succeeded => None
  | SubmissionError e | ExecutionFailure e | Cancelled _ e => Some e
  end.

(** Whether the workload exists in the cluster when [Run] returns. *)
Definition submitted (o : Outcome) : bool :=
  match o with
  | Succeeded | ExecutionFailure _ => true
  | SubmissionError _ => false
  | Cancelled created _ => created
  end.

End runner.

(** ** k8s.io/client-go/kubernetes: the calls the scanner makes *)

Module kubernetes.

Record Interface := {
  (** the cluster's answer to creating the job and watching it, as
      [runner.Run] over [kube.NewRunnableJob] observes it *)
  SubmitAndWait : batch.Job.t -> runner.Outcome;
  (** [BatchV1().Jobs(namespace).Delete(ctx, name, options)] *)
  JobsDelete : string -> string -> meta.DeleteOptions -> option error;
  (** [CoreV1().Nodes().Get(ctx, name, options)] *)
  NodesGet : string -> option core.Node.t * option error
}.

End kubernetes.

(** ** pkg/kube/pod *)

Module pod.

Record Manager := {
  GetPodByJob : batch.Job.t -> error + core.Pod.t;
  GetPodLogs : core.Pod.t -> string -> error + ReadCloser
}.

End pod.

(** ** The execution-unit locator behind [GetPodByJob] *)

Module locator.




End locator.

Record Converter := {
  Convert : ReadCloser -> starboard.CISKubeBenchOutput * option error
}.

(** ** Outbound calls, in the order they are made *)

Inductive Event :=
| CallRun (job : batch.Job.t) (o : runner.Outcome)
| CallJobsDelete (namespace name : string) (opts : meta.DeleteOptions)
| CallGetPodByJob (job : batch.Job.t) (res : error + core.Pod.t)
| CallGetPodLogs (p : core.Pod.t) (container : string) (res : error + ReadCloser)
| CallConvert (r : ReadCloser) (res : starboard.CISKubeBenchOutput * option error)
| CallClose (r : ReadCloser)
| CallNodesGet (name : string) (res : option core.Node.t * option error).

Definition isDelete (e : Event) : bool :=
  match e with CallJobsDelete _ _ _ => true | _ => false end.
Definition isConvert (e : Event) : bool :=
  match e with CallConvert _ _ => true | _ => false end.
Definition isClose (e : Event) : bool :=
  match e with CallClose _ => true | _ => false end.

(** ** A Go function body with named results, [defer] and a bare [return] *)

Module Go.

(** The named results of [Scan]. *)
Record Results := {
  report : starboard.CISKubeBenchOutput;
  node : option core.Node.t;
  err : option error
}.

(** A deferred function of [Scan] makes outbound calls only. *)
Definition Deferred := list Event -> list Event.

Record Frame := {
  results : Results;
  trace : list Event;
  deferred : list Deferred   (* most recently deferred first *)
}.

(** [None] as a value: the body has executed [return]. *)
Definition M (A : Type) := Frame -> option A * Frame.

Definition ret {A} (a : A) : M A := fun f => (Some a, f).

Definition bind {A B} (m : M A) (k : A -> M B) : M B :=
  fun f => match m f with
           | (Some a, f') => k a f'
           | (None, f') => (None, f')
           end.

Definition return_ {A} : M A := fun f => (None, f).

Definition call {A} (ev : A -> Event) (a : A) : M A :=
  fun f => (Some a, {| results := results f;
                       trace := (trace f ++ [ev a])%list;
                       deferred := deferred f |}).

Definition defer (d : Deferred) : M unit :=
  fun f => (Some tt, {| results := results f;
                        trace := trace f;
                        deferred := d :: deferred f |}).

Definition assign (upd : Results -> Results) : M unit :=
  fun f => (Some tt, {| results := upd (results f);
                        trace := trace f;
                        deferred := deferred f |}).

Definition setReport (r : starboard.CISKubeBenchOutput) : M unit :=
  assign (fun rs => {| report := r; node := node rs; err := err rs |}).
Definition setNode (n : option core.Node.t) : M unit :=
  assign (fun rs => {| report := report rs; node := n; err := err rs |}).
Definition setErr (e : option error) : M unit :=
  assign (fun rs => {| report := report rs; node := node rs; err := e |}).

Definition init : Frame :=
  {| results := {| report := starboard.zero; node := None; err := None |};
     trace := [];
     deferred := [] |}.

(** Run the body, then the deferred functions, last deferred first, then
    hand the named results to the caller. *)
Definition run (body : M unit) : Results * list Event :=
  let f := snd (body init) in
  (results f, fold_left (fun t d => d t) (deferred f) (trace f)).

End Go.

Declare Scope go_scope.
Delimit Scope go_scope with go.
Notation "x <- c1 ;; c2" := (Go.bind c1 (fun x => c2))
  (at level 100, c1 at next level, right associativity) : go_scope.
Notation "c1 ;; c2" := (Go.bind c1 (fun _ => c2))
  (at level 100, right associativity) : go_scope.

(** ** The scanner *)

Definition kubeBenchContainerName := "kube-bench".
Definition kubeBenchContainerImage := "aquasec/kube-bench:latest".

Record Scanner := {
  opts : kube.ScannerOpts;
  clientset : kubernetes.Interface;
  pods : pod.Manager;
  converter : Converter
}.

Section WithNamespace.

(** [kube.NamespaceStarboard], a constant of pkg/kube. *)
Variable NamespaceStarboard : string.

Definition hostPathVolume (name path : string) : core.Volume.t :=
  {| core.Volume.Name := name;
     core.Volume.VolumeSource :=
       {| core.VolumeSource.HostPath :=
            Some {| core.HostPathVolumeSource.Path := path |} |} |}.

Definition readOnlyMount (name path : string) : core.VolumeMount.t :=
  {| core.VolumeMount.Name := name;
     core.VolumeMount.MountPath := path;
     core.VolumeMount.ReadOnly := true |}.

Definition prepareKubeBenchJob (s : Scanner) (rander : uuid.Reader) : batch.Job.t :=
  {| batch.Job.ObjectMeta :=
       {| meta.Name := uuid.String (uuid.New rander);
          meta.Namespace := NamespaceStarboard;
          meta.Labels := [("app", "kube-bench")] |};
     batch.Job.Spec :=
       {| batch.JobSpec.BackoffLimit := pointer.Int32Ptr 0;
          batch.JobSpec.Completions := pointer.Int32Ptr 1;
          batch.JobSpec.ActiveDeadlineSeconds :=
            scanners.GetActiveDeadlineSeconds (kube.ScanJobTimeout (opts s));
          batch.JobSpec.Template :=
            {| core.PodTemplateSpec.ObjectMeta :=
                 {| meta.Name := EmptyString;
                    meta.Namespace := EmptyString;
                    meta.Labels := [("app", "kube-bench")] |};
               core.PodTemplateSpec.Spec :=
                 {| core.PodSpec.RestartPolicy := core.RestartPolicyNever;
                    core.PodSpec.HostPID := true;
                    core.PodSpec.NodeName := EmptyString;
                    core.PodSpec.Volumes :=
                      [ hostPathVolume "var-lib-etcd" "/var/lib/etcd";
                        hostPathVolume "var-lib-kubelet" "/var/lib/kubelet";
                        hostPathVolume "etc-systemd" "/etc/systemd";
                        hostPathVolume "etc-kubernetes" "/etc/kubernetes";
                        hostPathVolume "usr-bin" "/usr/bin" ];
                    core.PodSpec.Containers :=
                      [ {| core.Container.Name := kubeBenchContainerName;
                           core.Container.Image := kubeBenchContainerImage;
                           core.Container.ImagePullPolicy := core.PullAlways;
                           core.Container.TerminationMessagePolicy :=
                             core.TerminationMessageFallbackToLogsOnError;
                           core.Container.Command := ["kube-bench"];
                           core.Container.Args := ["--json"];
                           core.Container.VolumeMounts :=
                             [ readOnlyMount "var-lib-etcd" "/var/lib/etcd";
                               readOnlyMount "var-lib-kubelet" "/var/lib/kubelet";
                               readOnlyMount "etc-systemd" "/etc/systemd";
                               readOnlyMount "etc-kubernetes" "/etc/kubernetes";
                               readOnlyMount "usr-bin" "/usr/local/mount-from-host/bin" ]
                        |} ]
                 |}
            |}
       |}
  |}.

Definition jobName (j : batch.Job.t) : string := meta.Name (batch.Job.ObjectMeta j).
Definition jobNamespace (j : batch.Job.t) : string :=
  meta.Namespace (batch.Job.ObjectMeta j).

(** The deferred deletion of the job (step 6). *)
Definition deleteJob (s : Scanner) (kubeBenchJob : batch.Job.t) : Go.Deferred :=
  fun t =>
    let background := meta.DeletePropagationBackground in
    let opts := {| meta.PropagationPolicy := Some background |} in
    let _ := kubernetes.JobsDelete (clientset s)
               (jobNamespace kubeBenchJob) (jobName kubeBenchJob) opts in
    (t ++ [CallJobsDelete (jobNamespace kubeBenchJob) (jobName kubeBenchJob) opts])%list.

(** The deferred [logsReader.Close()]. *)
Definition closeLogs (logsReader : ReadCloser) : Go.Deferred :=
  fun t => (t ++ [CallClose logsReader])%list.

(** The body of [Scan] after step 1. The context [ctx] is handed to every
    collaborator and shows only in their answers (a cancellation is an
    error they return); the log lines written through klog are left out. *)
Definition ScanBody (s : Scanner) (kubeBenchJob : batch.Job.t) : Go.M unit :=
  ( (* 2. Run the prepared Job and wait for its completion or failure *)
    o <- Go.call (CallRun kubeBenchJob)
           (kubernetes.SubmitAndWait (clientset s) kubeBenchJob) ;;
    Go.setErr (runner.err o) ;;
    match runner.err o with
    | Some e => Go.setErr (Some (Errorf "running kube-bench job" e)) ;; Go.return_
    | None => Go.ret tt
    end ;;
    Go.defer (deleteJob s kubeBenchJob) ;;
    (* 3. Get the Pod controlled by the kube-bench Job *)
    p <- Go.call (CallGetPodByJob kubeBenchJob)
           (pod.GetPodByJob (pods s) kubeBenchJob) ;;
    match p with
    | inl e => Go.setErr (Some (Errorf "getting kube-bench pod" e)) ;; Go.return_
    | inr kubeBenchPod =>
        (* 4. Get kube-bench JSON output from the kube-bench Pod *)
        l <- Go.call (CallGetPodLogs kubeBenchPod kubeBenchContainerName)
               (pod.GetPodLogs (pods s) kubeBenchPod kubeBenchContainerName) ;;
        match l with
        | inl e => Go.setErr (Some (Errorf "getting logs" e)) ;; Go.return_
        | inr logsReader =>
            Go.defer (closeLogs logsReader) ;;
            (* 5. Parse the CISBenchmarkReport from the logs Reader *)
            c <- Go.call (CallConvert logsReader)
                   (Convert (converter s) logsReader) ;;
            Go.setReport (fst c) ;;
            Go.setErr (snd c) ;;
            match snd c with
            | Some e =>
                Go.setErr (Some (Errorf "parsing CIS benchmark report" e)) ;;
                Go.return_
            | None =>
                let nodeName := core.PodSpec.NodeName (core.Pod.Spec kubeBenchPod) in
                n <- Go.call (CallNodesGet nodeName)
                       (kubernetes.NodesGet (clientset s) nodeName) ;;
                Go.setNode (fst n) ;;
                Go.setErr (snd n) ;;
                Go.return_
            end
        end
    end )%go.

(** [Scan]: the named results handed to the caller and the outbound calls
    made, in order. *)
Definition Scan (s : Scanner) (rander : uuid.Reader) : Go.Results * list Event :=
  (* 1. Prepare descriptor for the Kubernetes Job which will run kube-bench *)
  let kubeBenchJob := prepareKubeBenchJob s rander in
  Go.run (ScanBody s kubeBenchJob).

End WithNamespace.

(** ** A mocked cluster: every collaborator answers with a fixed value *)

Module mock.

Definition cluster (o : runner.Outcome)
    (n : option core.Node.t * option error) : kubernetes.Interface :=
  {| kubernetes.SubmitAndWait := fun _ => o;
     kubernetes.JobsDelete := fun _ _ _ => None;
     kubernetes.NodesGet := fun _ => n |}.

Definition scanner (timeout : Z) (o : runner.Outcome)
    (p : error + core.Pod.t) (l : error + ReadCloser)
    (c : starboard.CISKubeBenchOutput * option error)
    (n : option core.Node.t * option error) : Scanner :=
  {| opts := {| kube.ScanJobTimeout := timeout |};
     clientset := cluster o n;
     pods := {| pod.GetPodByJob := fun _ => p;
                pod.GetPodLogs := fun _ _ => l |};
     converter := {| Convert := fun _ => c |} |}.

(** A pod of the job, scheduled on node-1. *)
Definition pod1 : core.Pod.t :=
  {| core.Pod.ObjectMeta :=
       {| meta.Name := "kube-bench-x2x9k";
          meta.Namespace := "starboard";
          meta.Labels := [("app", "kube-bench")] |};
     core.Pod.Spec :=
       {| core.PodSpec.RestartPolicy := core.RestartPolicyNever;
          core.PodSpec.HostPID := true;
          core.PodSpec.NodeName := "node-1";
          core.PodSpec.Volumes := [];
          core.PodSpec.Containers := [] |} |}.

Definition node1 : core.Node.t :=
  {| core.Node.ObjectMeta :=
       {| meta.Name := "node-1"; meta.Namespace := EmptyString; meta.Labels := [] |} |}.

Definition logs1 : ReadCloser := {| handle := 3; content := "{}" |}.

(** A minimal report with one passing test. *)
Definition report1 : starboard.CISKubeBenchOutput :=
  {| starboard.Sections :=
       [ {| starboard.Tests :=
              [ {| starboard.Status := "PASS"; starboard.Remediation := EmptyString |} ] |} ] |}.

(** Two random sources: all zeroes, and all zeroes but for the high nibble
    of the seventh byte. *)
Definition zeroes : uuid.Reader := fun _ => 0.
Definition zeroesBut6 : uuid.Reader :=
  fun i => if Nat.eqb i 6 then 240 else 0.

Definition jobFailed : error := Status JobFailed "job failed: BackoffLimitExceeded".
Definition podNotFound : error := Status NotFound "pods not found".
Definition nodeNotFound : error := Status NotFound "nodes node-1 not found".

(** Scanners over a mocked cluster: everything succeeds; the job has no
    pod; the node is gone by the time it is looked up. *)
Definition ok : Scanner :=
  scanner 30 runner.Succeeded (inr pod1) (inr logs1)
    (report1, None) (Some node1, None).

Definition noPod : Scanner :=
  scanner 30 runner.Succeeded (inl podNotFound) (inr logs1)
    (report1, None) (Some node1, None).

Definition noNode : Scanner :=
  scanner 30 runner.Succeeded (inr pod1) (inr logs1)
    (report1, None) (None, Some nodeNotFound).

End mock.

(** ** Vocabulary of the properties *)

Definition podSpecOf (j : batch.Job.t) : core.PodSpec.t :=
  core.PodTemplateSpec.Spec (batch.JobSpec.Template (batch.Job.Spec j)).

Definition mountsOf (j : batch.Job.t) : list core.VolumeMount.t :=
  flat_map core.Container.VolumeMounts (core.PodSpec.Containers (podSpecOf j)).

(** Some container of the job sees the host directory [hostPath] at
    [mountPath], through a declared host-path volume, read-only. *)
Definition readOnlyHostMount (j : batch.Job.t) (hostPath mountPath : string) : Prop :=
  exists v m,
    In v (core.PodSpec.Volumes (podSpecOf j)) /\
    core.VolumeSource.HostPath (core.Volume.VolumeSource v)
      = Some {| core.HostPathVolumeSource.Path := hostPath |} /\
    In m (mountsOf j) /\
    core.VolumeMount.Name m = core.Volume.Name v /\
    core.VolumeMount.MountPath m = mountPath /\
    core.VolumeMount.ReadOnly m = true.

Definition isByte (b : Z) : Prop := 0 <= b < 256.

(** The delete call for a job's identity, with background propagation. *)
Definition deleteCall (j : batch.Job.t) : Event :=
  CallJobsDelete (jobNamespace j) (jobName j)
    {| meta.PropagationPolicy := Some meta.DeletePropagationBackground |}.

Definition mkResults (r : starboard.CISKubeBenchOutput) (n : option core.Node.t)
    (e : option error) : Go.Results :=
  {| Go.report := r; Go.node := n; Go.err := e |}.

(** The exit paths of [Scan] for a scanner [s] and the job it prepared: what
    each hands to the caller and the calls it makes. *)
Inductive ScanPath (s : Scanner) (j : batch.Job.t) : Go.Results * list Event -> Prop :=
| PathRunFailed e :
    runner.err (kubernetes.SubmitAndWait (clientset s) j) = Some e ->
    ScanPath s j
      (mkResults starboard.zero None (Some (Errorf "running kube-bench job" e)),
       [CallRun j (kubernetes.SubmitAndWait (clientset s) j)])
| PathPodFailed e :
    kubernetes.SubmitAndWait (clientset s) j = runner.Succeeded ->
    pod.GetPodByJob (pods s) j = inl e ->
    ScanPath s j
      (mkResults starboard.zero None (Some (Errorf "getting kube-bench pod" e)),
       [CallRun j runner.Succeeded; CallGetPodByJob j (inl e); deleteCall j])
| PathLogsFailed p e :
    kubernetes.SubmitAndWait (clientset s) j = runner.Succeeded ->
    pod.GetPodByJob (pods s) j = inr p ->
    pod.GetPodLogs (pods s) p kubeBenchContainerName = inl e ->
    ScanPath s j
      (mkResults starboard.zero None (Some (Errorf "getting logs" e)),
       [CallRun j runner.Succeeded; CallGetPodByJob j (inr p);
        CallGetPodLogs p kubeBenchContainerName (inl e); deleteCall j])
| PathConvertFailed p r rep e :
    kubernetes.SubmitAndWait (clientset s) j = runner.Succeeded ->
    pod.GetPodByJob (pods s) j = inr p ->
    pod.GetPodLogs (pods s) p kubeBenchContainerName = inr r ->
    Convert (converter s) r = (rep, Some e) ->
    ScanPath s j
      (mkResults rep None (Some (Errorf "parsing CIS benchmark report" e)),
       [CallRun j runner.Succeeded; CallGetPodByJob j (inr p);
        CallGetPodLogs p kubeBenchContainerName (inr r);
        CallConvert r (rep, Some e); CallClose r; deleteCall j])
| PathNodeLookup p r rep n ne :
    kubernetes.SubmitAndWait (clientset s) j = runner.Succeeded ->
    pod.GetPodByJob (pods s) j = inr p ->
    pod.GetPodLogs (pods s) p kubeBenchContainerName = inr r ->
    Convert (converter s) r = (rep, None) ->
    kubernetes.NodesGet (clientset s)
      (core.PodSpec.NodeName (core.Pod.Spec p)) = (n, ne) ->
    ScanPath s j
      (mkResults rep n ne,
       [CallRun j runner.Succeeded; CallGetPodByJob j (inr p);
        CallGetPodLogs p kubeBenchContainerName (inr r);
        CallConvert r (rep, None);
        CallNodesGet (core.PodSpec.NodeName (core.Pod.Spec p)) (n, ne);
        CallClose r; deleteCall j]).

(** ** Further vocabulary: call names, object names, more scenarios *)

(** The collaborator operation behind a call. *)
Definition callName (e : Event) : string :=
  match e with
  | CallRun _ _ => "runner.Run"
  | CallJobsDelete _ _ _ => "Jobs.Delete"
  | CallGetPodByJob _ _ => "pods.GetPodByJob"
  | CallGetPodLogs _ _ _ => "pods.GetPodLogs"
  | CallConvert _ _ => "converter.Convert"
  | CallClose _ => "logsReader.Close"
  | CallNodesGet _ _ => "Nodes.Get"
  end.

(** Names of cluster objects: a DNS-1123 label is at most 63 characters of
    [a-z0-9-] and starts and ends with one of [a-z0-9]. *)
Definition isLowerAlnum (c : ascii) : bool :=
  let n := nat_of_ascii c in
  ((48 <=? n)%nat && (n <=? 57)%nat) || ((97 <=? n)%nat && (n <=? 122)%nat).

Definition isLabelChar (c : ascii) : bool :=
  isLowerAlnum c || Ascii.eqb c "-"%char.

Fixpoint allChars (p : ascii -> bool) (s : string) : bool :=
  match s with
  | EmptyString => true
  | String c s' => p c && allChars p s'
  end.

Fixpoint lastChar (s : string) : option ascii :=
  match s with
  | EmptyString => None
  | String c EmptyString => Some c
  | String _ s' => lastChar s'
  end.

Definition isDNS1123Label (s : string) : bool :=
  match s with
  | EmptyString => false
  | String c _ => isLowerAlnum c
  end
  && match lastChar s with
     | Some c => isLowerAlnum c
     | None => false
     end
  && allChars isLabelChar s
  && (String.length s <=? 63)%nat.

(** The digits that [hex.Encode] writes: 0-9 and a-f. *)
Definition isLowerHex (c : ascii) : bool :=
  let n := nat_of_ascii c in
  ((48 <=? n)%nat && (n <=? 57)%nat) || ((97 <=? n)%nat && (n <=? 102)%nat).

Definition isHexOrDash (c : ascii) : bool :=
  isLowerHex c || Ascii.eqb c "-"%char.

Module scenario.

(** The descriptor is rejected at submission. *)
Definition rejected : Scanner :=
  mock.scanner 30 (runner.SubmissionError (Status Rejected "jobs.batch is forbidden"))
    (inr mock.pod1) (inr mock.logs1) (mock.report1, None) (Some mock.node1, None).

(** The pod has no logs to stream. *)
Definition noLogs : Scanner :=
  mock.scanner 30 runner.Succeeded (inr mock.pod1)
    (inl (Status StreamUnavailable "container kube-bench is not available"))
    (mock.report1, None) (Some mock.node1, None).

(** The log stream is not a report. *)
Definition garbage : Scanner :=
  mock.scanner 30 runner.Succeeded (inr mock.pod1) (inr mock.logs1)
    (starboard.zero, Some (Status Malformed "unexpected end of JSON input"))
    (Some mock.node1, None).


End scenario.

(** * Properties of the descriptor builder *)

Section Builder.

Variable NamespaceStarboard : string.

(** C2: for a configured timeout T >= 0, the descriptor's
    active-deadline-seconds is T when T > 0 and unset when T = 0. *)
Theorem prepareKubeBenchJob_deadline (s : Scanner) (rander : uuid.Reader) (T : Z) :
  kube.ScanJobTimeout (opts s) = T ->
  0 <= T ->
  (0 < T ->
   batch.JobSpec.ActiveDeadlineSeconds
     (batch.Job.Spec (prepareKubeBenchJob NamespaceStarboard s rander)) = Some T) /\
  (T = 0 ->
   batch.JobSpec.ActiveDeadlineSeconds
     (batch.Job.Spec (prepareKubeBenchJob NamespaceStarboard s rander)) = None).
Proof.
  intros HT Hpos. cbn.
  unfold scanners.GetActiveDeadlineSeconds, pointer.Int64Ptr. rewrite HT.
  split; intros H.
  - apply Z.ltb_lt in H. now rewrite H.
  - rewrite H. reflexivity.
Qed.

(** C3: every descriptor has completions = 1, backoff limit = 0 and a pod
    template with restart policy Never, whatever the configuration. *)
Theorem prepareKubeBenchJob_run_once (s : Scanner) (rander : uuid.Reader) :
  let spec := batch.Job.Spec (prepareKubeBenchJob NamespaceStarboard s rander) in
  batch.JobSpec.Completions spec = Some 1 /\
  batch.JobSpec.BackoffLimit spec = Some 0 /\
  core.PodSpec.RestartPolicy (podSpecOf (prepareKubeBenchJob NamespaceStarboard s rander))
    = core.RestartPolicyNever.
Proof. cbn. repeat split. Qed.

Lemma mountsOf_prepare (s : Scanner) (rander : uuid.Reader) :
  mountsOf (prepareKubeBenchJob NamespaceStarboard s rander) =
    [ readOnlyMount "var-lib-etcd" "/var/lib/etcd";
      readOnlyMount "var-lib-kubelet" "/var/lib/kubelet";
      readOnlyMount "etc-systemd" "/etc/systemd";
      readOnlyMount "etc-kubernetes" "/etc/kubernetes";
      readOnlyMount "usr-bin" "/usr/local/mount-from-host/bin" ].
Proof. reflexivity. Qed.

Lemma volumes_prepare (s : Scanner) (rander : uuid.Reader) :
  core.PodSpec.Volumes (podSpecOf (prepareKubeBenchJob NamespaceStarboard s rander)) =
    [ hostPathVolume "var-lib-etcd" "/var/lib/etcd";
      hostPathVolume "var-lib-kubelet" "/var/lib/kubelet";
      hostPathVolume "etc-systemd" "/etc/systemd";
      hostPathVolume "etc-kubernetes" "/etc/kubernetes";
      hostPathVolume "usr-bin" "/usr/bin" ].
Proof. reflexivity. Qed.

Lemma readOnlyHostMount_intro (j : batch.Job.t) (name hostPath mountPath : string) :
  In (hostPathVolume name hostPath) (core.PodSpec.Volumes (podSpecOf j)) ->
  In (readOnlyMount name mountPath) (mountsOf j) ->
  readOnlyHostMount j hostPath mountPath.
Proof.
  intros Hv Hm. exists (hostPathVolume name hostPath), (readOnlyMount name mountPath).
  repeat split; assumption.
Qed.

(** C4: every descriptor declares host-PID access and read-only host-path
    mounts of the etcd data, kubelet state, systemd unit, kubernetes config
    and host binary directories; the host binary directory is mounted at a
    path other than /usr/bin, and every mount of the descriptor is
    read-only. *)
Theorem prepareKubeBenchJob_host_access (s : Scanner) (rander : uuid.Reader) :
  let j := prepareKubeBenchJob NamespaceStarboard s rander in
  core.PodSpec.HostPID (podSpecOf j) = true /\
  readOnlyHostMount j "/var/lib/etcd" "/var/lib/etcd" /\
  readOnlyHostMount j "/var/lib/kubelet" "/var/lib/kubelet" /\
  readOnlyHostMount j "/etc/systemd" "/etc/systemd" /\
  readOnlyHostMount j "/etc/kubernetes" "/etc/kubernetes" /\
  readOnlyHostMount j "/usr/bin" "/usr/local/mount-from-host/bin" /\
  (forall mountPath, readOnlyHostMount j "/usr/bin" mountPath ->
                     mountPath <> "/usr/bin") /\
  Forall (fun m => core.VolumeMount.ReadOnly m = true) (mountsOf j).
Proof.
  intros j. subst j.
  split; [reflexivity|].
  repeat match goal with
         | |- readOnlyHostMount _ _ _ /\ _ => split
         end.
  - apply readOnlyHostMount_intro with (name := "var-lib-etcd");
      rewrite ?volumes_prepare, ?mountsOf_prepare; simpl; tauto.
  - apply readOnlyHostMount_intro with (name := "var-lib-kubelet");
      rewrite ?volumes_prepare, ?mountsOf_prepare; simpl; tauto.
  - apply readOnlyHostMount_intro with (name := "etc-systemd");
      rewrite ?volumes_prepare, ?mountsOf_prepare; simpl; tauto.
  - apply readOnlyHostMount_intro with (name := "etc-kubernetes");
      rewrite ?volumes_prepare, ?mountsOf_prepare; simpl; tauto.
  - apply readOnlyHostMount_intro with (name := "usr-bin");
      rewrite ?volumes_prepare, ?mountsOf_prepare; simpl; tauto.
  - split.
    + intros mountPath (v & m & Hv & Hp & Hm & Hn & Hmp & _).
      rewrite volumes_prepare in Hv. rewrite mountsOf_prepare in Hm.
      simpl in Hv, Hm.
      repeat (destruct Hv as [Hv | Hv]; [subst v; try discriminate Hp|]);
        try contradiction.
      repeat (destruct Hm as [Hm | Hm]; [subst m; try discriminate Hn|]);
        try contradiction.
      subst mountPath. discriminate.
    + rewrite mountsOf_prepare. repeat constructor.
Qed.

End Builder.

(** * Properties of the identity generator *)

Section Identity.

Lemma Z_below (n : nat) (P : Z -> Prop) :
  (forall k, (k < n)%nat -> P (Z.of_nat k)) ->
  forall a, 0 <= a < Z.of_nat n -> P a.
Proof.
  intros H a Ha. rewrite <- (Z2Nat.id a) by lia. apply H. lia.
Qed.

Ltac below n tac :=
  let k := fresh "k" in
  let Hk := fresh "Hk" in
  match goal with
  | |- forall a, _ -> @?P a => apply (Z_below n P)
  end;
  intros k Hk;
  repeat (destruct k as [|k]; [clear Hk; tac | try (exfalso; lia)]).

Lemma hexdigit_inj (a b : Z) :
  0 <= a < 16 -> 0 <= b < 16 ->
  uuid.hexdigit a = uuid.hexdigit b -> a = b.
Proof.
  intros Ha Hb. revert b Hb. revert a Ha.
  below 16%nat ltac:(below 16%nat ltac:(vm_compute; intros E;
                                       first [reflexivity | discriminate E])).
Qed.

Lemma lor_version (a : Z) : 0 <= a < 16 -> Z.lor a 64 = a + 64.
Proof. revert a. below 16%nat ltac:(reflexivity). Qed.

Lemma lor_variant (a : Z) : 0 <= a < 64 -> Z.lor a 128 = a + 128.
Proof. revert a. below 64%nat ltac:(reflexivity). Qed.

Lemma land_15_range (b : Z) : 0 <= b -> 0 <= Z.land b 15 < 16.
Proof.
  intros Hb. change 15 with (Z.ones 4). rewrite Z.land_ones by lia.
  apply Z.mod_pos_bound. reflexivity.
Qed.

Lemma land_63_range (b : Z) : 0 <= b -> 0 <= Z.land b 63 < 64.
Proof.
  intros Hb. change 63 with (Z.ones 6). rewrite Z.land_ones by lia.
  apply Z.mod_pos_bound. reflexivity.
Qed.

Lemma shiftr_4_range (b : Z) : 0 <= b < 256 -> 0 <= Z.shiftr b 4 < 16.
Proof.
  intros Hb. rewrite Z.shiftr_div_pow2 by lia. change (2 ^ 4) with 16.
  split; [apply Z.div_pos; lia | apply Z.div_lt_upper_bound; lia].
Qed.

(** A byte is determined by its two hexadecimal digits. *)
Lemma hexbyte_inj (a b : Z) :
  0 <= a < 256 -> 0 <= b < 256 ->
  uuid.hexdigit (Z.shiftr a 4) = uuid.hexdigit (Z.shiftr b 4) ->
  uuid.hexdigit (Z.land a 15) = uuid.hexdigit (Z.land b 15) ->
  a = b.
Proof.
  intros Ha Hb Hhi Hlo.
  apply hexdigit_inj in Hhi; try (apply shiftr_4_range; assumption).
  apply hexdigit_inj in Hlo; try (apply land_15_range; lia).
  rewrite !Z.shiftr_div_pow2 in Hhi by lia. change (2 ^ 4) with 16 in Hhi.
  change 15 with (Z.ones 4) in Hlo. rewrite !Z.land_ones in Hlo by lia.
  change (2 ^ 4) with 16 in Hlo.
  rewrite (Z.div_mod a 16), (Z.div_mod b 16) by lia. congruence.
Qed.

(** The bytes of a fresh UUID, written out. *)
Lemma New_bytes (r : uuid.Reader) :
  uuid.New r =
    [ r 0%nat mod 256; r 1%nat mod 256; r 2%nat mod 256; r 3%nat mod 256;
      r 4%nat mod 256; r 5%nat mod 256;
      Z.lor (Z.land (r 6%nat mod 256) 15) 64; r 7%nat mod 256;
      Z.lor (Z.land (r 8%nat mod 256) 63) 128; r 9%nat mod 256;
      r 10%nat mod 256; r 11%nat mod 256; r 12%nat mod 256;
      r 13%nat mod 256; r 14%nat mod 256; r 15%nat mod 256 ].
Proof. reflexivity. Qed.

Lemma New_isByte (r : uuid.Reader) : Forall isByte (uuid.New r).
Proof.
  rewrite New_bytes.
  assert (Hm : forall i, isByte (r i mod 256))
    by (intros i; apply Z.mod_pos_bound; reflexivity).
  assert (H6 : isByte (Z.lor (Z.land (r 6%nat mod 256) 15) 64)).
  { pose proof (land_15_range (r 6%nat mod 256) (proj1 (Hm _))) as H.
    rewrite lor_version by assumption. unfold isByte. lia. }
  assert (H8 : isByte (Z.lor (Z.land (r 8%nat mod 256) 63) 128)).
  { pose proof (land_63_range (r 8%nat mod 256) (proj1 (Hm _))) as H.
    rewrite lor_variant by assumption. unfold isByte. lia. }
  repeat constructor; solve [apply Hm | apply H6 | apply H8].
Qed.

(** The printed form of a UUID determines its 16 bytes. *)
Lemma String_inj (u1 u2 : uuid.UUID) :
  List.length u1 = 16%nat -> List.length u2 = 16%nat ->
  Forall isByte u1 -> Forall isByte u2 ->
  uuid.String u1 = uuid.String u2 -> u1 = u2.
Proof.
  intros L1 L2 B1 B2 E.
  do 17 (destruct u1 as [|? u1]; try discriminate L1).
  do 17 (destruct u2 as [|? u2]; try discriminate L2).
  cbn [uuid.String uuid.slice firstn skipn uuid.hexEncode String.append Nat.sub] in E.
  repeat match goal with
         | H : Forall _ (_ :: _) |- _ => inversion H; subst; clear H
         end.
  injection E; intros.
  repeat f_equal; apply hexbyte_inj; assumption.
Qed.

Lemma New_length (r : uuid.Reader) : List.length (uuid.New r) = 16%nat.
Proof. reflexivity. Qed.

Lemma lor_version_inj (a b : Z) :
  0 <= a -> 0 <= b ->
  Z.lor (Z.land a 15) 64 = Z.lor (Z.land b 15) 64 -> Z.land a 15 = Z.land b 15.
Proof.
  intros Ha Hb. rewrite !lor_version by (apply land_15_range; assumption). lia.
Qed.

Lemma lor_variant_inj (a b : Z) :
  0 <= a -> 0 <= b ->
  Z.lor (Z.land a 63) 128 = Z.lor (Z.land b 63) 128 -> Z.land a 63 = Z.land b 63.
Proof.
  intros Ha Hb. rewrite !lor_variant by (apply land_63_range; assumption). lia.
Qed.

(** Two fresh UUIDs coincide exactly when the draws agree on every bit that
    is not overwritten. *)
Lemma New_eq_iff (r1 r2 : uuid.Reader) :
  uuid.New r1 = uuid.New r2 <->
  forall i, (i < 16)%nat -> uuid.freeBits i (r1 i) = uuid.freeBits i (r2 i).
Proof.
  rewrite !New_bytes. split.
  - intros E i Hi.
    injection E as E0 E1 E2 E3 E4 E5 E6 E7 E8 E9 E10 E11 E12 E13 E14 E15.
    assert (H6 : uuid.freeBits 6 (r1 6%nat) = uuid.freeBits 6 (r2 6%nat))
      by (apply lor_version_inj; try assumption;
          apply Z.mod_pos_bound; reflexivity).
    assert (H8 : uuid.freeBits 8 (r1 8%nat) = uuid.freeBits 8 (r2 8%nat))
      by (apply lor_variant_inj; try assumption;
          apply Z.mod_pos_bound; reflexivity).
    do 16 (destruct i as [|i]; [assumption|]). exfalso; lia.
  - intros H.
    pose proof (H 0%nat) as H0. pose proof (H 1%nat) as H1.
    pose proof (H 2%nat) as H2. pose proof (H 3%nat) as H3.
    pose proof (H 4%nat) as H4. pose proof (H 5%nat) as H5.
    pose proof (H 6%nat) as H6. pose proof (H 7%nat) as H7.
    pose proof (H 8%nat) as H8. pose proof (H 9%nat) as H9.
    pose proof (H 10%nat) as H10. pose proof (H 11%nat) as H11.
    pose proof (H 12%nat) as H12. pose proof (H 13%nat) as H13.
    pose proof (H 14%nat) as H14. pose proof (H 15%nat) as H15.
    cbn [uuid.freeBits] in *.
    rewrite H0, H1, H2, H3, H4, H5, H6, H7, H8, H9, H10, H11, H12, H13, H14, H15
      by lia.
    reflexivity.
Qed.

Variable NamespaceStarboard : string.

(** C5, as the code has it: the job name is the printed form of a version-4
    UUID made from 16 bytes of the random source, so two invocations get the
    same name exactly when their draws agree on all bits but the six that
    version and variant overwrite; whenever the draws differ in one of the
    other 122 bits, the names differ. *)
Theorem prepareKubeBenchJob_name_eq_iff (s1 s2 : Scanner) (r1 r2 : uuid.Reader) :
  jobName (prepareKubeBenchJob NamespaceStarboard s1 r1)
    = jobName (prepareKubeBenchJob NamespaceStarboard s2 r2)
  <->
  forall i, (i < 16)%nat -> uuid.freeBits i (r1 i) = uuid.freeBits i (r2 i).
Proof.
  rewrite <- New_eq_iff. unfold jobName. cbn [prepareKubeBenchJob batch.Job.ObjectMeta meta.Name].
  split.
  - apply String_inj; auto using New_length, New_isByte.
  - intros E. now rewrite E.
Qed.

End Identity.

(** C5, as stated, fails: two invocations whose draws from the random source
    coincide, or differ only in the high nibble of the seventh byte, build
    jobs with the same name. *)
Lemma prepareKubeBenchJob_name_collision :
  let s := mock.scanner 0 runner.Succeeded (inr mock.pod1) (inr mock.logs1)
             (mock.report1, None) (Some mock.node1, None) in
  (uuid.ReadFull mock.zeroes <> uuid.ReadFull mock.zeroesBut6 /\
   jobName (prepareKubeBenchJob "starboard" s mock.zeroes)
     = jobName (prepareKubeBenchJob "starboard" s mock.zeroesBut6)) /\
  ~ (forall r1 r2 : uuid.Reader,
       jobName (prepareKubeBenchJob "starboard" s r1)
         <> jobName (prepareKubeBenchJob "starboard" s r2)).
Proof.
  intros s. split; [split|].
  - vm_compute. discriminate.
  - vm_compute. reflexivity.
  - intros H. apply (H mock.zeroes mock.zeroes). reflexivity.
Qed.

(** * Properties of [Scan] *)

Section ScanPaths.

Variables (s : Scanner) (j : batch.Job.t).

Ltac run_body :=
  unfold Go.run, ScanBody, Go.bind, Go.call, Go.defer, Go.setErr, Go.setReport,
    Go.setNode, Go.assign, Go.return_, Go.ret, deleteJob, closeLogs;
  cbn.

(** Every run of the body of [Scan] followed by its deferred calls takes
    one of the five exit paths. *)
Lemma Scan_path : ScanPath s j (Go.run (ScanBody s j)).
Proof.
  destruct (kubernetes.SubmitAndWait (clientset s) j) as [|e|e|created e] eqn:Hrun.
  2-4: run_body; rewrite Hrun; cbn; rewrite <- Hrun at 1;
       apply PathRunFailed; rewrite Hrun; reflexivity.
  destruct (pod.GetPodByJob (pods s) j) as [e|p] eqn:Hpod.
  { run_body. rewrite Hrun. cbn. rewrite Hpod. cbn.
    now apply PathPodFailed. }
  destruct (pod.GetPodLogs (pods s) p kubeBenchContainerName) as [e|r] eqn:Hlogs.
  { run_body. rewrite Hrun. cbn. rewrite Hpod. cbn.
    fold kubeBenchContainerName. rewrite Hlogs. cbn.
    now apply PathLogsFailed. }
  destruct (Convert (converter s) r) as [rep [e|]] eqn:Hconv.
  { run_body. rewrite Hrun. cbn. rewrite Hpod. cbn.
    fold kubeBenchContainerName. rewrite Hlogs. cbn. rewrite Hconv. cbn.
    now apply PathConvertFailed. }
  destruct (kubernetes.NodesGet (clientset s)
              (core.PodSpec.NodeName (core.Pod.Spec p))) as [n ne] eqn:Hnode.
  run_body. rewrite Hrun. cbn. rewrite Hpod. cbn.
  fold kubeBenchContainerName. rewrite Hlogs. cbn. rewrite Hconv. cbn.
  rewrite Hnode. cbn.
  now apply PathNodeLookup.
Qed.

End ScanPaths.

Section ScanProperties.

Variable NamespaceStarboard : string.

Lemma Scan_takes_path (s : Scanner) (rander : uuid.Reader) :
  ScanPath s (prepareKubeBenchJob NamespaceStarboard s rander) (Scan NamespaceStarboard s rander).
Proof. unfold Scan. apply Scan_path. Qed.

(** Case analysis on the exit path taken, with the results and the trace
    replaced by what the path gives. *)
Ltac on_paths s rander :=
  let P := fresh "P" in
  let out := fresh "out" in
  let E := fresh "E" in
  pose proof (Scan_takes_path s rander) as P;
  remember (Scan NamespaceStarboard s rander) as out eqn:E in *; clear E;
  destruct P; cbn [fst snd] in *.

Ltac absurd_in H :=
  cbn [In] in H;
  repeat (destruct H as [H | H]; [try discriminate H|]);
  try contradiction.

(** X1: once the run coordinator reports success, the delete call for the
    job's identity is made exactly once, with background propagation, on
    every later exit path. *)
Lemma Scan_deletes_once_after_run (s : Scanner) (rander : uuid.Reader) :
  kubernetes.SubmitAndWait (clientset s) (prepareKubeBenchJob NamespaceStarboard s rander) = runner.Succeeded ->
  filter isDelete (snd (Scan NamespaceStarboard s rander)) = [deleteCall (prepareKubeBenchJob NamespaceStarboard s rander)].
Proof.
  intros Hrun. on_paths s rander; try reflexivity.
  rewrite Hrun in *. discriminate.
Qed.

(** When the run coordinator reports an error, [Scan] returns before the
    deletion is deferred: no delete call is made. *)
Lemma Scan_no_delete_after_failed_run (s : Scanner) (rander : uuid.Reader) (e : error) :
  runner.err (kubernetes.SubmitAndWait (clientset s) (prepareKubeBenchJob NamespaceStarboard s rander)) = Some e ->
  filter isDelete (snd (Scan NamespaceStarboard s rander)) = [].
Proof.
  intros Hrun. on_paths s rander; try reflexivity;
    match goal with
    | H : kubernetes.SubmitAndWait _ _ = runner.Succeeded |- _ =>
        rewrite H in Hrun; discriminate Hrun
    end.
Qed.

(** X3: an error of the run coordinator, the pod lookup, the opening of the log
    stream or the decoding reaches the caller wrapped with the name of its
    stage. *)
Lemma Scan_wraps_stage_errors (s : Scanner) (rander : uuid.Reader) :
  let j := prepareKubeBenchJob NamespaceStarboard s rander in
  let tr := snd (Scan NamespaceStarboard s rander) in
  let err := Go.err (fst (Scan NamespaceStarboard s rander)) in
  (forall e, runner.err (kubernetes.SubmitAndWait (clientset s) j) = Some e ->
             err = Some (Errorf "running kube-bench job" e)) /\
  (forall e, In (CallGetPodByJob j (inl e)) tr ->
             err = Some (Errorf "getting kube-bench pod" e)) /\
  (forall p c e, In (CallGetPodLogs p c (inl e)) tr ->
                 err = Some (Errorf "getting logs" e)) /\
  (forall r rep e, In (CallConvert r (rep, Some e)) tr ->
                   err = Some (Errorf "parsing CIS benchmark report" e)).
Proof.
  cbn zeta. on_paths s rander; cbn [Go.err mkResults];
    (split; [intros x Hin | split; [intros x Hin | split;
       [intros p0 c0 x Hin | intros r0 rep0 x Hin]]]);
    try (absurd_in Hin; congruence);
    try (match goal with
         | Hrun : kubernetes.SubmitAndWait _ _ = _ |- _ => rewrite Hrun in Hin
         end; cbn in Hin; congruence).
Qed.


(** C8: a delete call is never made before the run coordinator has
    returned: whatever precedes a delete call in the trace contains the
    return of the submit-and-wait step, with a successful terminal state. *)
Theorem Scan_delete_after_run (s : Scanner) (rander : uuid.Reader)
    (pre post : list Event) (d : Event) :
  snd (Scan NamespaceStarboard s rander) = (pre ++ d :: post)%list ->
  isDelete d = true ->
  In (CallRun (prepareKubeBenchJob NamespaceStarboard s rander) runner.Succeeded) pre.
Proof.
  intros H Hd. on_paths s rander;
    repeat (destruct pre as [|? pre]; cbn in H;
            [ injection H; intros; subst; cbn in Hd; try discriminate Hd
            | try discriminate H; injection H as <- H ]);
    try (left; reflexivity);
    destruct pre; discriminate H.
Qed.

(** C9: a log stream that was opened is closed exactly once, after it was
    opened and after the converter and the node lookup were called, before
    [Scan] returns. *)
Theorem Scan_closes_logs (s : Scanner) (rander : uuid.Reader)
    (p : core.Pod.t) (c : string) (r : ReadCloser) :
  In (CallGetPodLogs p c (inr r)) (snd (Scan NamespaceStarboard s rander)) ->
  exists pre post,
    snd (Scan NamespaceStarboard s rander) = (pre ++ CallClose r :: post)%list /\
    In (CallGetPodLogs p c (inr r)) pre /\
    filter isClose pre = [] /\
    filter isClose post = [] /\
    Forall (fun e => isDelete e = true) post.
Proof.
  intros H. on_paths s rander; absurd_in H.
  - injection H as -> -> ->.
    eexists [_; _; _; _], [_]. cbn.
    repeat split; try reflexivity; [tauto | repeat constructor].
  - injection H as -> -> ->.
    eexists [_; _; _; _; _], [_]. cbn.
    repeat split; try reflexivity; [tauto | repeat constructor].
Qed.

(** C10: when decoding succeeds and the node lookup that follows fails,
    [Scan] returns the decoded report together with the error of the node
    lookup. *)
Theorem Scan_report_with_node_error (s : Scanner) (rander : uuid.Reader)
    (r : ReadCloser) (rep : starboard.CISKubeBenchOutput)
    (name : string) (n : option core.Node.t) (e : error) :
  In (CallConvert r (rep, None)) (snd (Scan NamespaceStarboard s rander)) ->
  In (CallNodesGet name (n, Some e)) (snd (Scan NamespaceStarboard s rander)) ->
  Go.report (fst (Scan NamespaceStarboard s rander)) = rep /\
  Go.err (fst (Scan NamespaceStarboard s rander)) = Some e /\
  Go.node (fst (Scan NamespaceStarboard s rander)) = n.
Proof.
  intros Hc Hn. on_paths s rander; absurd_in Hc; absurd_in Hn.
  injection Hc as _ Hrep. injection Hn as _ Hnode Herr.
  subst. repeat split.
Qed.

End ScanProperties.

(** * The exit paths that the properties above leave out *)

(** C1: when the run coordinator reports an execution failure of the
    submitted job, or a cancellation that fired after the job was created,
    [Scan] makes the submit-and-wait call and nothing else: no delete call is
    issued for the job. *)
Theorem Scan_failed_run_leaves_job (T : Z) (e : error)
    (p : error + core.Pod.t) (l : error + ReadCloser)
    (c : starboard.CISKubeBenchOutput * option error)
    (n : option core.Node.t * option error) (rander : uuid.Reader) :
  let failed := mock.scanner T (runner.ExecutionFailure e) p l c n in
  let cancelled := mock.scanner T (runner.Cancelled true e) p l c n in
  (runner.submitted (runner.ExecutionFailure e) = true /\
   snd (Scan "starboard" failed rander)
     = [CallRun (prepareKubeBenchJob "starboard" failed rander)
          (runner.ExecutionFailure e)] /\
   filter isDelete (snd (Scan "starboard" failed rander)) = []) /\
  (runner.submitted (runner.Cancelled true e) = true /\
   snd (Scan "starboard" cancelled rander)
     = [CallRun (prepareKubeBenchJob "starboard" cancelled rander)
          (runner.Cancelled true e)] /\
   filter isDelete (snd (Scan "starboard" cancelled rander)) = []).
Proof.
  cbn zeta. repeat split;
    solve [ eapply Scan_no_delete_after_failed_run; reflexivity ].
Qed.

(** C6: when the node lookup fails after a successful decoding, the error
    that [Scan] returns is the error of the lookup itself, not wrapped with
    any stage name. *)
Theorem Scan_node_error_not_wrapped (T : Z) (rander : uuid.Reader) :
  let s := mock.scanner T runner.Succeeded (inr mock.pod1) (inr mock.logs1)
             (mock.report1, None) (None, Some mock.nodeNotFound) in
  Go.err (fst (Scan "starboard" s rander)) = Some mock.nodeNotFound /\
  Unwrap mock.nodeNotFound = None /\
  forall stage : string,
    Go.err (fst (Scan "starboard" s rander))
      <> Some (Errorf stage mock.nodeNotFound).
Proof.
  cbn zeta. repeat split. intros stage. cbv. discriminate.
Qed.

(** * Instances *)

(** A timeout of 30 seconds gives a deadline of 30 seconds. *)
Lemma prepareKubeBenchJob_deadline_witness :
  kube.ScanJobTimeout (opts mock.ok) = 30 /\
  0 <= 30 /\
  batch.JobSpec.ActiveDeadlineSeconds
    (batch.Job.Spec (prepareKubeBenchJob "starboard" mock.ok mock.zeroes))
    = Some 30.
Proof.
  split; [reflexivity | split; [lia|]].
  apply (prepareKubeBenchJob_deadline "starboard" mock.ok mock.zeroes 30);
    [reflexivity | lia | lia].
Defined.


(** The successful run: the delete call is the last call, after the return
    of the run coordinator. *)
Lemma Scan_delete_after_run_witness :
  let j := prepareKubeBenchJob "starboard" mock.ok mock.zeroes in
  let pre := [ CallRun j runner.Succeeded;
               CallGetPodByJob j (inr mock.pod1);
               CallGetPodLogs mock.pod1 kubeBenchContainerName (inr mock.logs1);
               CallConvert mock.logs1 (mock.report1, None);
               CallNodesGet "node-1" (Some mock.node1, None);
               CallClose mock.logs1 ] in
  snd (Scan "starboard" mock.ok mock.zeroes) = (pre ++ deleteCall j :: [])%list /\
  isDelete (deleteCall j) = true /\
  In (CallRun j runner.Succeeded) pre.
Proof.
  intros j pre.
  split; [reflexivity | split; [reflexivity|]].
  apply (Scan_delete_after_run "starboard" mock.ok mock.zeroes
           pre [] (deleteCall j)); reflexivity.
Defined.

(** The successful run: the log stream is closed once. *)
Lemma Scan_closes_logs_witness :
  In (CallGetPodLogs mock.pod1 kubeBenchContainerName (inr mock.logs1))
     (snd (Scan "starboard" mock.ok mock.zeroes)) /\
  exists pre post,
    snd (Scan "starboard" mock.ok mock.zeroes)
      = (pre ++ CallClose mock.logs1 :: post)%list /\
    In (CallGetPodLogs mock.pod1 kubeBenchContainerName (inr mock.logs1)) pre /\
    filter isClose pre = [] /\
    filter isClose post = [] /\
    Forall (fun e => isDelete e = true) post.
Proof.
  assert (H : In (CallGetPodLogs mock.pod1 kubeBenchContainerName (inr mock.logs1))
                 (snd (Scan "starboard" mock.ok mock.zeroes)))
    by (right; right; left; reflexivity).
  split; [exact H|].
  exact (Scan_closes_logs "starboard" mock.ok mock.zeroes
           mock.pod1 kubeBenchContainerName mock.logs1 H).
Defined.

(** The node is gone after a successful decoding: the report comes back with
    the error. *)
Lemma Scan_report_with_node_error_witness :
  In (CallConvert mock.logs1 (mock.report1, None))
     (snd (Scan "starboard" mock.noNode mock.zeroes)) /\
  In (CallNodesGet "node-1" (None, Some mock.nodeNotFound))
     (snd (Scan "starboard" mock.noNode mock.zeroes)) /\
  Go.report (fst (Scan "starboard" mock.noNode mock.zeroes)) = mock.report1 /\
  Go.err (fst (Scan "starboard" mock.noNode mock.zeroes)) = Some mock.nodeNotFound /\
  Go.node (fst (Scan "starboard" mock.noNode mock.zeroes)) = None.
Proof.
  assert (Hc : In (CallConvert mock.logs1 (mock.report1, None))
                  (snd (Scan "starboard" mock.noNode mock.zeroes)))
    by (do 3 right; left; reflexivity).
  assert (Hn : In (CallNodesGet "node-1" (None, Some mock.nodeNotFound))
                  (snd (Scan "starboard" mock.noNode mock.zeroes)))
    by (do 4 right; left; reflexivity).
  split; [exact Hc | split; [exact Hn|]].
  exact (Scan_report_with_node_error "starboard" mock.noNode mock.zeroes
           mock.logs1 mock.report1 "node-1" None mock.nodeNotFound Hc Hn).
Defined.

(** * Further properties of [Scan]: calls, results and errors on each path *)

Section ScanCalls.

Variable NamespaceStarboard : string.

(** Case analysis on the exit path of one invocation. *)
Ltac by_path s rander :=
  let P := fresh "P" in
  let out := fresh "out" in
  let E := fresh "E" in
  pose proof (Scan_takes_path NamespaceStarboard s rander) as P;
  remember (Scan NamespaceStarboard s rander) as out eqn:E in *; clear E;
  destruct P; cbn [fst snd Go.err Go.report Go.node mkResults] in *.

Ltac not_in H :=
  cbn [In] in H;
  repeat (destruct H as [H | H]; [try discriminate H|]);
  try contradiction.

Ltac run_succeeded :=
  match goal with
  | Hs : kubernetes.SubmitAndWait _ _ = runner.Succeeded,
    Hf : runner.err (kubernetes.SubmitAndWait _ _) = Some _ |- _ =>
      rewrite Hs in Hf; discriminate Hf
  end.

(** X2: when the run coordinator returns an error, [Scan] makes no further
    call: it returns that error wrapped as "running kube-bench job", the zero
    report and no node, and its only call is the submit-and-wait. *)
Theorem Scan_stops_at_failed_run (s : Scanner) (rander : uuid.Reader) (e : error) :
  runner.err (kubernetes.SubmitAndWait (clientset s)
                (prepareKubeBenchJob NamespaceStarboard s rander)) = Some e ->
  Scan NamespaceStarboard s rander =
    (mkResults starboard.zero None (Some (Errorf "running kube-bench job" e)),
     [CallRun (prepareKubeBenchJob NamespaceStarboard s rander)
        (kubernetes.SubmitAndWait (clientset s)
           (prepareKubeBenchJob NamespaceStarboard s rander))]).
Proof.
  intros Hf. by_path s rander; try run_succeeded.
  rewrite Hf in *. congruence.
Qed.

(** X4: every error that [Scan] returns is a collaborator's error, either
    wrapped once with the name of one of the first four stages or, for the
    node lookup, as the lookup returned it. *)
Theorem Scan_error_origin (s : Scanner) (rander : uuid.Reader) (e' : error) :
  Go.err (fst (Scan NamespaceStarboard s rander)) = Some e' ->
  let j := prepareKubeBenchJob NamespaceStarboard s rander in
  let tr := snd (Scan NamespaceStarboard s rander) in
  (exists e, e' = Errorf "running kube-bench job" e /\
             runner.err (kubernetes.SubmitAndWait (clientset s) j) = Some e) \/
  (exists e, e' = Errorf "getting kube-bench pod" e /\
             In (CallGetPodByJob j (inl e)) tr) \/
  (exists e p, e' = Errorf "getting logs" e /\
               In (CallGetPodLogs p kubeBenchContainerName (inl e)) tr) \/
  (exists e r rep, e' = Errorf "parsing CIS benchmark report" e /\
                   In (CallConvert r (rep, Some e)) tr) \/
  (exists name n, In (CallNodesGet name (n, Some e')) tr).
Proof.
  intros He. cbn zeta. by_path s rander.
  - injection He as <-. left. exists e. split; [reflexivity | assumption].
  - injection He as <-. right; left. exists e.
    split; [reflexivity | cbn [In]; auto].
  - injection He as <-. right; right; left. exists e, p.
    split; [reflexivity | cbn [In]; auto].
  - injection He as <-. right; right; right; left. exists e, r, rep.
    split; [reflexivity | cbn [In]; auto 6].
  - subst ne. right; right; right; right.
    exists (core.PodSpec.NodeName (core.Pod.Spec p)), n. cbn [In]. auto 10.
Qed.

(** X5: when [Scan] returns no error, all five collaborators succeeded, the
    seven calls were made in order, ending with the close of the stream and
    the delete of the job, and the results are the converter's report and the
    node of the lookup. *)
Theorem Scan_success (s : Scanner) (rander : uuid.Reader) :
  Go.err (fst (Scan NamespaceStarboard s rander)) = None ->
  let j := prepareKubeBenchJob NamespaceStarboard s rander in
  exists p r rep n,
    Scan NamespaceStarboard s rander =
      (mkResults rep n None,
       [CallRun j runner.Succeeded;
        CallGetPodByJob j (inr p);
        CallGetPodLogs p kubeBenchContainerName (inr r);
        CallConvert r (rep, None);
        CallNodesGet (core.PodSpec.NodeName (core.Pod.Spec p)) (n, None);
        CallClose r;
        deleteCall j]).
Proof.
  intros He. cbn zeta. by_path s rander; try discriminate He.
  subst ne. exists p, r, rep, n. reflexivity.
Qed.

(** X6: the data that flows between the calls. A node is looked up only
    under the node name of the pod found for the job; the converter reads
    only the stream opened on that pod. *)
Theorem Scan_data_flow (s : Scanner) (rander : uuid.Reader) :
  let j := prepareKubeBenchJob NamespaceStarboard s rander in
  let tr := snd (Scan NamespaceStarboard s rander) in
  (forall name res, In (CallNodesGet name res) tr ->
     exists p, In (CallGetPodByJob j (inr p)) tr /\
               name = core.PodSpec.NodeName (core.Pod.Spec p)) /\
  (forall r res, In (CallConvert r res) tr ->
     exists p, In (CallGetPodByJob j (inr p)) tr /\
               In (CallGetPodLogs p kubeBenchContainerName (inr r)) tr) /\
  (forall p c res, In (CallGetPodLogs p c res) tr ->
     In (CallGetPodByJob j (inr p)) tr) /\
  (forall j' res, In (CallGetPodByJob j' res) tr ->
     j' = j /\ In (CallRun j runner.Succeeded) tr).
Proof.
  cbn zeta. by_path s rander;
    (split; [intros name res Hin | split; [intros r0 res Hin | split;
       [intros p0 c0 res Hin | intros j' res Hin]]]);
    not_in Hin.
  all: try (injection Hin; intros; subst; clear Hin).
  all: try (eexists; split; [|try reflexivity]); cbn [In]; auto 10.
Qed.

(** X7: a node is returned only after a successful decoding and a node
    lookup that returned that node; the report returned with it is the
    decoded one. *)
Theorem Scan_node_origin (s : Scanner) (rander : uuid.Reader) (n : core.Node.t) :
  Go.node (fst (Scan NamespaceStarboard s rander)) = Some n ->
  exists r name e,
    In (CallConvert r (Go.report (fst (Scan NamespaceStarboard s rander)), None))
       (snd (Scan NamespaceStarboard s rander)) /\
    In (CallNodesGet name (Some n, e)) (snd (Scan NamespaceStarboard s rander)) /\
    Go.err (fst (Scan NamespaceStarboard s rander)) = e.
Proof.
  intros Hn. by_path s rander; try discriminate Hn.
  subst n0. exists r, (core.PodSpec.NodeName (core.Pod.Spec p)), ne.
  cbn [In]. auto 10.
Qed.

(** X8: when the converter is never called, [Scan] returns the zero report,
    no node and an error. *)
Theorem Scan_empty_without_decoding (s : Scanner) (rander : uuid.Reader) :
  filter isConvert (snd (Scan NamespaceStarboard s rander)) = [] ->
  Go.report (fst (Scan NamespaceStarboard s rander)) = starboard.zero /\
  Go.node (fst (Scan NamespaceStarboard s rander)) = None /\
  Go.err (fst (Scan NamespaceStarboard s rander)) <> None.
Proof.
  intros Hc. by_path s rander; try discriminate Hc;
    repeat split; discriminate.
Qed.

(** X9: when decoding fails, [Scan] returns the decoding error wrapped as
    "parsing CIS benchmark report" together with whatever report value the
    converter handed back, returns no node and looks none up; the stream is
    closed and the job is deleted. *)
Theorem Scan_decoding_failure (s : Scanner) (rander : uuid.Reader)
    (r : ReadCloser) (rep : starboard.CISKubeBenchOutput) (e : error) :
  In (CallConvert r (rep, Some e)) (snd (Scan NamespaceStarboard s rander)) ->
  let j := prepareKubeBenchJob NamespaceStarboard s rander in
  fst (Scan NamespaceStarboard s rander)
    = mkResults rep None (Some (Errorf "parsing CIS benchmark report" e)) /\
  exists p,
    snd (Scan NamespaceStarboard s rander) =
      [CallRun j runner.Succeeded;
       CallGetPodByJob j (inr p);
       CallGetPodLogs p kubeBenchContainerName (inr r);
       CallConvert r (rep, Some e);
       CallClose r;
       deleteCall j].
Proof.
  intros Hin. cbn zeta. by_path s rander; not_in Hin.
  injection Hin; intros; subst. split; [reflexivity|]. exists p. reflexivity.
Qed.

(** X10: no collaborator operation is invoked twice in one invocation:
    nothing is retried. *)
Theorem Scan_calls_once (s : Scanner) (rander : uuid.Reader) :
  NoDup (map callName (snd (Scan NamespaceStarboard s rander))).
Proof.
  by_path s rander; cbn [map callName deleteCall];
    repeat (constructor; [cbn [In]; intuition discriminate|]);
    constructor.
Qed.

(** X11: the delete of the job is the last call of an invocation: nothing
    is read from the cluster after it. *)
Theorem Scan_delete_is_last (s : Scanner) (rander : uuid.Reader) (d : Event) :
  In d (snd (Scan NamespaceStarboard s rander)) ->
  isDelete d = true ->
  exists pre,
    snd (Scan NamespaceStarboard s rander) = (pre ++ [d])%list /\
    filter isDelete pre = [].
Proof.
  intros Hin Hd. by_path s rander; cbn [In] in Hin;
    repeat (destruct Hin as [Hin | Hin];
            [subst d; try discriminate Hd|]);
    try contradiction.
  - now eexists [_; _].
  - now eexists [_; _; _].
  - now eexists [_; _; _; _; _].
  - now eexists [_; _; _; _; _; _].
Qed.

(** X15: the container whose logs [Scan] asks for is the one container of
    the descriptor that the same invocation prepared. *)
Theorem Scan_reads_the_job_container (s : Scanner) (rander : uuid.Reader)
    (p : core.Pod.t) (c : string) (res : error + ReadCloser) :
  In (CallGetPodLogs p c res) (snd (Scan NamespaceStarboard s rander)) ->
  exists ct,
    core.PodSpec.Containers
      (podSpecOf (prepareKubeBenchJob NamespaceStarboard s rander)) = [ct] /\
    core.Container.Name ct = c /\
    core.Container.Command ct = ["kube-bench"] /\
    core.Container.Args ct = ["--json"].
Proof.
  intros Hin.
  assert (Hc : c = kubeBenchContainerName).
  { by_path s rander; not_in Hin; injection Hin; intros; subst; reflexivity. }
  subst c. eexists. split; [reflexivity|]. repeat split.
Qed.

End ScanCalls.

(** * Further properties of the descriptor *)

Section Descriptor.

Variable NamespaceStarboard : string.

Lemma hexdigit_alnum (n : Z) : isLowerAlnum (uuid.hexdigit n) = true.
Proof.
  unfold uuid.hexdigit. generalize (Z.to_nat n) as k. intros k.
  do 16 (destruct k as [|k]; [reflexivity|]). destruct k; reflexivity.
Qed.

Lemma hexdigit_label (n : Z) : isLabelChar (uuid.hexdigit n) = true.
Proof. unfold isLabelChar. now rewrite hexdigit_alnum. Qed.

Lemma hexdigit_hex (n : Z) : isLowerHex (uuid.hexdigit n) = true.
Proof.
  unfold uuid.hexdigit. generalize (Z.to_nat n) as k. intros k.
  do 16 (destruct k as [|k]; [reflexivity|]). destruct k; reflexivity.
Qed.

Lemma hexdigit_hexOrDash (n : Z) : isHexOrDash (uuid.hexdigit n) = true.
Proof. unfold isHexOrDash. now rewrite hexdigit_hex. Qed.

(** X12: the name of every prepared job is 36 characters long and a valid
    DNS-1123 label made of lower-case hexadecimal digits and dashes only:
    every character is one of 0-9, a-f or a dash, every position other than
    8, 13, 18 and 23 holds a hexadecimal digit, and so do the first and the
    last. *)
Theorem prepareKubeBenchJob_name_is_label (s : Scanner) (rander : uuid.Reader) :
  let name := jobName (prepareKubeBenchJob NamespaceStarboard s rander) in
  String.length name = 36%nat /\
  isDNS1123Label name = true /\
  allChars isHexOrDash name = true /\
  (forall i, (i < 36)%nat -> i <> 8%nat -> i <> 13%nat -> i <> 18%nat -> i <> 23%nat ->
             exists c, String.get i name = Some c /\ isLowerHex c = true) /\
  (exists c, String.get 0 name = Some c /\ isLowerHex c = true) /\
  (exists c, String.get 35 name = Some c /\ isLowerHex c = true).
Proof.
  cbn zeta. unfold jobName.
  cbn [prepareKubeBenchJob batch.Job.ObjectMeta meta.Name].
  rewrite New_bytes.
  cbn [uuid.String uuid.slice firstn skipn uuid.hexEncode String.append Nat.sub].
  split; [reflexivity|].
  split.
  { unfold isDNS1123Label. cbn [allChars lastChar String.length].
    rewrite !hexdigit_alnum, !hexdigit_label. reflexivity. }
  split.
  { cbn [allChars]. rewrite !hexdigit_hexOrDash. reflexivity. }
  split.
  { intros i Hi H8 H13 H18 H23.
    do 36 (destruct i as [|i];
           [ first [ exfalso; congruence
                   | cbn [String.get]; eexists; split;
                     [reflexivity | apply hexdigit_hex] ] |]).
    exfalso; lia. }
  split; cbn [String.get]; eexists; (split; [reflexivity | apply hexdigit_hex]).
Qed.

Lemma version_digit (x : Z) :
  0 <= x < 256 ->
  uuid.hexdigit (Z.shiftr (Z.lor (Z.land x 15) 64) 4) = "4"%char.
Proof.
  intros Hx.
  pose proof (land_15_range x (proj1 Hx)) as Ha.
  rewrite lor_version by assumption.
  rewrite Z.shiftr_div_pow2 by lia. change (2 ^ 4) with 16.
  replace ((Z.land x 15 + 64) / 16) with 4; [reflexivity|].
  apply Z.div_unique with (r := Z.land x 15); lia.
Qed.

Lemma variant_digit (x : Z) :
  0 <= x < 256 ->
  In (uuid.hexdigit (Z.shiftr (Z.lor (Z.land x 63) 128) 4))
     ["8"; "9"; "a"; "b"]%char.
Proof.
  intros Hx.
  pose proof (land_63_range x (proj1 Hx)) as Ha.
  rewrite lor_variant by assumption.
  rewrite Z.shiftr_div_pow2 by lia. change (2 ^ 4) with 16.
  assert (Hq : 8 <= (Z.land x 63 + 128) / 16 < 12).
  { split; [apply Z.div_le_lower_bound | apply Z.div_lt_upper_bound]; lia. }
  assert (Hc : (Z.land x 63 + 128) / 16 = 8 \/ (Z.land x 63 + 128) / 16 = 9 \/
               (Z.land x 63 + 128) / 16 = 10 \/ (Z.land x 63 + 128) / 16 = 11)
    by lia.
  destruct Hc as [-> | [-> | [-> | ->]]]; cbn; auto.
Qed.

(** X13: the name of every prepared job shows a version-4, variant-10 UUID:
    its fifteenth character is 4 and its twentieth is one of 8, 9, a, b, and
    the dashes stand at positions 8, 13, 18 and 23 (counted from 0). *)
Theorem prepareKubeBenchJob_name_is_v4 (s : Scanner) (rander : uuid.Reader) :
  let name := jobName (prepareKubeBenchJob NamespaceStarboard s rander) in
  String.get 14 name = Some "4"%char /\
  (exists c, String.get 19 name = Some c /\ In c ["8"; "9"; "a"; "b"]%char) /\
  String.get 8 name = Some "-"%char /\
  String.get 13 name = Some "-"%char /\
  String.get 18 name = Some "-"%char /\
  String.get 23 name = Some "-"%char.
Proof.
  cbn zeta. unfold jobName.
  cbn [prepareKubeBenchJob batch.Job.ObjectMeta meta.Name].
  rewrite New_bytes.
  cbn [uuid.String uuid.slice firstn skipn uuid.hexEncode String.append Nat.sub
       String.get].
  assert (H6 : 0 <= rander 6%nat mod 256 < 256)
    by (apply Z.mod_pos_bound; reflexivity).
  assert (H8 : 0 <= rander 8%nat mod 256 < 256)
    by (apply Z.mod_pos_bound; reflexivity).
  split; [now rewrite version_digit|].
  split; [eexists; split; [reflexivity | now apply variant_digit]|].
  repeat split.
Qed.

(** X14: the volumes and mounts of every descriptor fit together: the
    volume names are pairwise distinct, every volume is a host path, the
    mounts name exactly the declared volumes, in order, and no two mounts
    share a mount path. *)
Theorem prepareKubeBenchJob_mounts_match_volumes (s : Scanner) (rander : uuid.Reader) :
  let j := prepareKubeBenchJob NamespaceStarboard s rander in
  let volumes := core.PodSpec.Volumes (podSpecOf j) in
  NoDup (map core.Volume.Name volumes) /\
  Forall (fun v => core.VolumeSource.HostPath (core.Volume.VolumeSource v) <> None)
         volumes /\
  map core.VolumeMount.Name (mountsOf j) = map core.Volume.Name volumes /\
  NoDup (map core.VolumeMount.MountPath (mountsOf j)).
Proof.
  cbn zeta. rewrite volumes_prepare, mountsOf_prepare.
  cbn [map hostPathVolume readOnlyMount core.Volume.Name core.VolumeMount.Name
       core.VolumeMount.MountPath].
  split; [|split; [|split]].
  - repeat (constructor; [cbn [In]; intuition discriminate|]). constructor.
  - repeat constructor; discriminate.
  - reflexivity.
  - repeat (constructor; [cbn [In]; intuition discriminate|]). constructor.
Qed.

End Descriptor.

(** * Instances of the further properties *)

(** X1: on the successful run one delete call is made, for the prepared
    job. *)
Lemma Scan_deletes_once_after_run_witness :
  kubernetes.SubmitAndWait (clientset mock.ok)
    (prepareKubeBenchJob "starboard" mock.ok mock.zeroes) = runner.Succeeded /\
  filter isDelete (snd (Scan "starboard" mock.ok mock.zeroes))
    = [deleteCall (prepareKubeBenchJob "starboard" mock.ok mock.zeroes)].
Proof.
  split; [reflexivity|].
  apply (Scan_deletes_once_after_run "starboard" mock.ok mock.zeroes).
  reflexivity.
Defined.

Lemma Scan_stops_at_failed_run_witness :
  runner.err (kubernetes.SubmitAndWait (clientset scenario.rejected)
                (prepareKubeBenchJob "starboard" scenario.rejected mock.zeroes))
    = Some (Status Rejected "jobs.batch is forbidden") /\
  List.length (snd (Scan "starboard" scenario.rejected mock.zeroes)) = 1%nat.
Proof.
  split; [reflexivity|].
  rewrite (Scan_stops_at_failed_run "starboard" scenario.rejected mock.zeroes
             (Status Rejected "jobs.batch is forbidden") eq_refl).
  reflexivity.
Defined.

Lemma Scan_error_origin_witness :
  Go.err (fst (Scan "starboard" scenario.noLogs mock.zeroes))
    = Some (Errorf "getting logs"
              (Status StreamUnavailable "container kube-bench is not available")) /\
  exists e p,
    In (CallGetPodLogs p kubeBenchContainerName (inl e))
       (snd (Scan "starboard" scenario.noLogs mock.zeroes)).
Proof.
  split; [reflexivity|].
  destruct (Scan_error_origin "starboard" scenario.noLogs mock.zeroes _ eq_refl)
    as [(e & He & _) | [(e & He & _) | [(e & p & _ & Hin) | [(e & r & rep & He & _) | (name & n & Hin)]]]].
  - discriminate He.
  - discriminate He.
  - exists e, p. exact Hin.
  - discriminate He.
  - exfalso. cbn in Hin.
    repeat (destruct Hin as [Hin | Hin]; [discriminate Hin|]). exact Hin.
Defined.

Lemma Scan_success_witness :
  Go.err (fst (Scan "starboard" mock.ok mock.zeroes)) = None /\
  exists p r rep n,
    Scan "starboard" mock.ok mock.zeroes =
      (mkResults rep n None,
       [CallRun (prepareKubeBenchJob "starboard" mock.ok mock.zeroes) runner.Succeeded;
        CallGetPodByJob (prepareKubeBenchJob "starboard" mock.ok mock.zeroes) (inr p);
        CallGetPodLogs p kubeBenchContainerName (inr r);
        CallConvert r (rep, None);
        CallNodesGet (core.PodSpec.NodeName (core.Pod.Spec p)) (n, None);
        CallClose r;
        deleteCall (prepareKubeBenchJob "starboard" mock.ok mock.zeroes)]).
Proof.
  split; [reflexivity|].
  exact (Scan_success "starboard" mock.ok mock.zeroes eq_refl).
Defined.

Lemma Scan_node_origin_witness :
  Go.node (fst (Scan "starboard" mock.ok mock.zeroes)) = Some mock.node1 /\
  exists r name e,
    In (CallConvert r (Go.report (fst (Scan "starboard" mock.ok mock.zeroes)), None))
       (snd (Scan "starboard" mock.ok mock.zeroes)) /\
    In (CallNodesGet name (Some mock.node1, e))
       (snd (Scan "starboard" mock.ok mock.zeroes)) /\
    Go.err (fst (Scan "starboard" mock.ok mock.zeroes)) = e.
Proof.
  split; [reflexivity|].
  exact (Scan_node_origin "starboard" mock.ok mock.zeroes mock.node1 eq_refl).
Defined.

Lemma Scan_empty_without_decoding_witness :
  filter isConvert (snd (Scan "starboard" scenario.noLogs mock.zeroes)) = [] /\
  Go.report (fst (Scan "starboard" scenario.noLogs mock.zeroes)) = starboard.zero /\
  Go.node (fst (Scan "starboard" scenario.noLogs mock.zeroes)) = None /\
  Go.err (fst (Scan "starboard" scenario.noLogs mock.zeroes)) <> None.
Proof.
  split; [reflexivity|].
  exact (Scan_empty_without_decoding "starboard" scenario.noLogs mock.zeroes eq_refl).
Defined.

Lemma Scan_decoding_failure_witness :
  In (CallConvert mock.logs1
        (starboard.zero, Some (Status Malformed "unexpected end of JSON input")))
     (snd (Scan "starboard" scenario.garbage mock.zeroes)) /\
  fst (Scan "starboard" scenario.garbage mock.zeroes)
    = mkResults starboard.zero None
        (Some (Errorf "parsing CIS benchmark report"
                 (Status Malformed "unexpected end of JSON input"))).
Proof.
  assert (H : In (CallConvert mock.logs1
                    (starboard.zero,
                     Some (Status Malformed "unexpected end of JSON input")))
                 (snd (Scan "starboard" scenario.garbage mock.zeroes)))
    by (do 3 right; left; reflexivity).
  split; [exact H|].
  exact (proj1 (Scan_decoding_failure "starboard" scenario.garbage mock.zeroes
                  _ _ _ H)).
Defined.

Lemma Scan_delete_is_last_witness :
  In (deleteCall (prepareKubeBenchJob "starboard" scenario.garbage mock.zeroes))
     (snd (Scan "starboard" scenario.garbage mock.zeroes)) /\
  isDelete (deleteCall (prepareKubeBenchJob "starboard" scenario.garbage mock.zeroes))
    = true /\
  exists pre,
    snd (Scan "starboard" scenario.garbage mock.zeroes)
      = (pre ++ [deleteCall (prepareKubeBenchJob "starboard" scenario.garbage
                               mock.zeroes)])%list /\
    filter isDelete pre = [].
Proof.
  assert (H : In (deleteCall (prepareKubeBenchJob "starboard" scenario.garbage
                                mock.zeroes))
                 (snd (Scan "starboard" scenario.garbage mock.zeroes)))
    by (do 5 right; left; reflexivity).
  split; [exact H | split; [reflexivity|]].
  exact (Scan_delete_is_last "starboard" scenario.garbage mock.zeroes _ H eq_refl).
Defined.

Lemma Scan_reads_the_job_container_witness :
  In (CallGetPodLogs mock.pod1 "kube-bench" (inr mock.logs1))
     (snd (Scan "starboard" mock.ok mock.zeroes)) /\
  exists ct,
    core.PodSpec.Containers
      (podSpecOf (prepareKubeBenchJob "starboard" mock.ok mock.zeroes)) = [ct] /\
    core.Container.Name ct = "kube-bench" /\
    core.Container.Command ct = ["kube-bench"] /\
    core.Container.Args ct = ["--json"].
Proof.
  assert (H : In (CallGetPodLogs mock.pod1 "kube-bench" (inr mock.logs1))
                 (snd (Scan "starboard" mock.ok mock.zeroes)))
    by (do 2 right; left; reflexivity).
  split; [exact H|].
  exact (Scan_reads_the_job_container "starboard" mock.ok mock.zeroes _ _ _ H).
Defined.
